(** * Button: the variant-mapping wrapper around the HeroUI button

    Shallow embedding of [src/shared/components/atoms/Button.tsx] and the
    properties of its variant/colour mapping, its defaults and its
    attribute forwarding.

    A props object is a finite map from property names to JavaScript
    values; the component is a function from the props object it is called
    with to the element it returns, that is the component type together
    with the attribute object built by the JSX expression.

    Also embedded, with the same values and objects: the HeroUI button of
    the component's tests ([Button.test.tsx]) and [Button] rendered under
    it, the selection handlers and the active-filters panel of the home
    page ([page.tsx]), and the [console.error] filter of [jest.setup.js]. *)

From stdpp Require Import gmap strings list fin_maps.

#[export] Set Warnings "-register-all,-clear-no-such-hyp".

Local Open Scope string_scope.

(** ** JavaScript values and objects *)

(** The run-time values a property can hold. Functions (event handlers),
    React nodes and other objects are compared by identity only, so they
    are kept as opaque references. *)
Inductive value : Type :=
  | VUndefined
  | VNull
  | VBool (b : bool)
  | VNumber (n : Z)
  | VString (s : string)
  | VRef (r : nat).

#[global] Instance value_eq_dec : EqDecision value.
Proof. solve_decision. Defined.

#[global] Instance value_inhabited : Inhabited value := populate VUndefined.

(** An object: own enumerable string-keyed properties. A key can be present
    and hold [VUndefined]; that differs from the key being absent. *)
Abbreviation object := (gmap string value).

(** Property read [o.k]: an absent key reads as [undefined]. *)
Definition get (o : object) (k : string) : value :=
  default VUndefined (o !! k).

(** Destructuring default [{ k = d }]: the default replaces [undefined]
    and nothing else. *)
Definition or_default (v d : value) : value :=
  match v with
  | VUndefined => d
  | _ => v
  end.

(** Object spread [{ ...target, ...source }]: every own property of
    [source] is written over [target]. *)
Definition spread (target source : object) : object := source ∪ target.

(** ** The declared prop types (ButtonProps) *)

(** [variant?: 'primary' | 'secondary' | 'outline' | 'danger'] *)
Inductive ButtonVariant : Type := primary | secondary | outline | danger.

(** [size?: 'sm' | 'md' | 'lg'] *)
Inductive ButtonSize : Type := sm | md | lg.

Definition variant_name (v : ButtonVariant) : string :=
  match v with
  | primary => "primary"
  | secondary => "secondary"
  | outline => "outline"
  | danger => "danger"
  end.

Definition size_name (s : ButtonSize) : string :=
  match s with
  | sm => "sm"
  | md => "md"
  | lg => "lg"
  end.

(** ** The two mapping functions

    Both are declared on [string]; at run time the [switch] compares its
    argument to each label with [===], so any value that is not one of the
    four strings falls to [default]. *)

Definition getHeroUIVariant (customVariant : value) : string :=
  if decide (customVariant = VString "primary") then "solid"
  else if decide (customVariant = VString "secondary") then "flat"
  else if decide (customVariant = VString "outline") then "bordered"
  else if decide (customVariant = VString "danger") then "solid"
  else "solid".

Definition getHeroUIColor (customVariant : value) : string :=
  if decide (customVariant = VString "primary") then "primary"
  else if decide (customVariant = VString "secondary") then "default"
  else if decide (customVariant = VString "outline") then "default"
  else if decide (customVariant = VString "danger") then "danger"
  else "primary".

(** ** The component *)

Inductive component : Type := HeroUIButton.

(** What a JSX expression evaluates to: the component, the element's key
    and the attribute object (children included). *)
Record element : Type := Element {
  type : component;
  key : option value;
  props : object
}.

(** The key the JSX runtime takes from the object it is given: its [key]
    property, unless that is absent or [undefined]. The runtime keeps it as
    a string; here it is the value that was passed. *)
Definition element_key (config : object) : option value :=
  match config !! "key" with
  | Some VUndefined | None => None
  | Some v => Some v
  end.

(** [jsx(type, config)] of the JSX runtime: [key] is reserved, it goes to
    the element and is never a property of the element's props. Every
    other property stays ([ref] included, an ordinary property in the
    React 19 that the template's Next.js 15 runs on). *)
Definition jsx (t : component) (config : object) : element :=
  Element t (element_key config) (delete "key" config).

(** The rest pattern [...props] of the parameter list: the props object
    without the four destructured keys. *)
Definition rest_props (p : object) : object :=
  delete "loading" (delete "children" (delete "size" (delete "variant" p))).

(** [Button], following the source line by line: the destructuring with
    its defaults, then the attribute object of [<HeroUIButton ...>], whose
    properties are written in the order of the JSX attributes, the
    children last, handed to the JSX runtime. *)
Definition Button (p : object) : element :=
  let variant := or_default (get p "variant") (VString "primary") in
  let size := or_default (get p "size") (VString "md") in
  let children := get p "children" in
  let loading := or_default (get p "loading") (VBool false) in
  let props := rest_props p in
  let a : object := ∅ in
  let a := <["variant" := VString (getHeroUIVariant variant)]> a in
  let a := <["color" := VString (getHeroUIColor variant)]> a in
  let a := <["size" := size]> a in
  let a := <["isLoading" := loading]> a in
  let a := spread a props in
  let a := <["children" := children]> a in
  jsx HeroUIButton a.

(** Keys consumed by the parameter list; every other key of the props
    object is a passthrough attribute. *)
Definition consumed (k : string) : Prop :=
  k = "variant" ∨ k = "size" ∨ k = "children" ∨ k = "loading".

(** The mapping table of section 4.1 of the specification, one row per
    declared variant, as (style, colour). It is written from the
    specification's table and is compared below with what the component
    computes. *)
Definition table_4_1 (v : ButtonVariant) : string * string :=
  match v with
  | primary => ("solid", "primary")
  | secondary => ("flat", "default")
  | outline => ("bordered", "default")
  | danger => ("solid", "danger")
  end.

(** ** The same component over a store of objects

    JavaScript objects are heap-allocated and shared by reference: the
    caller owns the props object, the rest pattern allocates a new object,
    and so does the JSX expression. Here the store is explicit, so that
    what [Button] reads and writes can be stated. *)
Module Store.

(** The store: object number [l] is the one at index [l]. *)
Abbreviation store := (list object).

Definition M (A : Type) : Type := store → option (A * store).

#[local] Instance M_ret : MRet M := λ A (a : A) (σ : store), Some (a, σ).

#[local] Instance M_bind : MBind M := λ A B (k : A → M B) (m : M A) (σ : store),
  match m σ with
  | Some (a, σ') => k a σ'
  | None => None
  end.

(** Reading through a reference; a dangling reference is an error. *)
Definition load (l : nat) : M object :=
  λ σ : store,
    match σ !! l with
    | Some o => Some (o, σ)
    | None => None
    end.

(** A new object, placed after all existing ones. *)
Definition alloc (o : object) : M nat :=
  λ σ : store, Some (List.length σ, (σ ++ [o])%list).

(** An element holds a reference to its attribute object. *)
Record element : Type := Element {
  type : component;
  key : option value;
  props : nat
}.

(** [jsx(type, config)] over the store: the runtime copies [config]
    without its [key] when it has one, and otherwise takes the [config]
    object itself as the element's props. *)
Definition jsx (t : component) (config : nat) : M element :=
  c ← load config;
  if decide (is_Some (c !! "key")) then
    props ← alloc (delete "key" c);
    mret (Element t (element_key c) props)
  else
    mret (Element t (element_key c) config).

Definition Button (arg : nat) : M element :=
  p ← load arg;
  let variant := or_default (get p "variant") (VString "primary") in
  let size := or_default (get p "size") (VString "md") in
  let children := get p "children" in
  let loading := or_default (get p "loading") (VBool false) in
  props ← alloc (rest_props p);
  rest ← load props;
  let a : object := ∅ in
  let a := <["variant" := VString (getHeroUIVariant variant)]> a in
  let a := <["color" := VString (getHeroUIColor variant)]> a in
  let a := <["size" := size]> a in
  let a := <["isLoading" := loading]> a in
  let a := spread a rest in
  let a := <["children" := children]> a in
  attrs ← alloc a;
  jsx HeroUIButton attrs.

End Store.

(** ** Sample render requests *)

(** [<Button variant="secondary" color="danger">Go</Button>] *)
Definition request_secondary_danger : object :=
  {[ "variant" := VString "secondary"; "color" := VString "danger";
     "children" := VString "Go" ]}.

(** [<Button variant="ghost" color="danger">Go</Button>], a variant outside
    the declared four. *)
Definition request_ghost_danger : object :=
  {[ "variant" := VString "ghost"; "color" := VString "danger";
     "children" := VString "Go" ]}.

(** [<Button loading isLoading={false}>Go</Button>] *)
Definition request_loading_overridden : object :=
  {[ "loading" := VBool true; "isLoading" := VBool false;
     "children" := VString "Go" ]}.

(** [<Button color="danger" isLoading>Go</Button>] *)
Definition request_bare_overridden : object :=
  {[ "color" := VString "danger"; "isLoading" := VBool true;
     "children" := VString "Go" ]}.

(** [Button({ key: "k1", children: "Go" })] *)
Definition request_keyed : object :=
  {[ "key" := VString "k1"; "children" := VString "Go" ]}.

(** [<Button>Go</Button>] *)
Definition request_bare : object := {[ "children" := VString "Go" ]}.

(** [<Button variant="outline" size="lg" onClick={handler 7} data-custom="x">Go</Button>] *)
Definition request_outline_lg : object :=
  {[ "variant" := VString "outline"; "size" := VString "lg";
     "onClick" := VRef 7; "data-custom" := VString "x";
     "children" := VString "Go" ]}.

(** [<Button variant="danger" loading>Go</Button>] *)
Definition request_danger_loading : object :=
  {[ "variant" := VString "danger"; "loading" := VBool true;
     "children" := VString "Go" ]}.

(** ** JavaScript operators used by the callers *)

(** Truthiness of a value, as [&&], [||] and [if] test it. *)
Definition truthy (v : value) : bool :=
  match v with
  | VUndefined | VNull => false
  | VBool b => b
  | VNumber n => negb (n =? 0)%Z
  | VString s => negb (String.eqb s "")
  | VRef _ => true
  end.

(** [a || b] *)
Definition or_else (a b : value) : value := if truthy a then a else b.

(** [a !== b] *)
Definition strict_ne (a b : value) : value := VBool (negb (bool_decide (a = b))).

(** A rendered tree: an expression child (a string, a number, or one of the
    values React renders as nothing) or an element with its attribute
    object and its children in order. *)
Inductive node : Type :=
  | NValue (v : value)
  | NElement (tag : string) (attrs : object) (children : list node).

(** [c && <X/>] in a JSX child position: the element when [c] is truthy,
    the value of [c] itself otherwise. *)
Definition and_then (c : value) (n : node) : node :=
  if truthy c then n else NValue c.

(** The number of elements with tag [t] in a tree. *)
Fixpoint count_tag (t : string) (n : node) : nat :=
  match n with
  | NValue _ => 0
  | NElement tag _ children =>
      (if decide (tag = t) then 1 else 0)
      + foldr (λ c acc, count_tag t c + acc) 0 children
  end.

(** ** The HeroUI button of the component's tests

    [Button.test.tsx] replaces the library's button by a function that
    writes the attributes it receives on a DOM [button], as [data-]
    attributes, so that the tests can read them back. *)

(** The rest pattern [...props] of the mock's parameter list. *)
Definition mock_rest_props (p : object) : object :=
  delete "onClick" (delete "isDisabled" (delete "isLoading" (delete "size"
    (delete "color" (delete "variant" (delete "children" p)))))).

(** Keys destructured by the mock. *)
Definition mock_consumed (k : string) : Prop :=
  k = "children" ∨ k = "variant" ∨ k = "color" ∨ k = "size" ∨
  k = "isLoading" ∨ k = "isDisabled" ∨ k = "onClick".

(** A JSX expression with a DOM tag: the attributes written, without the
    reserved [key], and the children. *)
Definition jsx_dom (tag : string) (config : object) (children : list node) : node :=
  NElement tag (delete "key" config) children.

Definition loading_spinner : node :=
  NElement "span" {[ "data-testid" := VString "loading-spinner" ]}
    [NValue (VString "Loading...")].

Definition MockHeroUIButton (p : object) : node :=
  let children := get p "children" in
  let variant := get p "variant" in
  let color := get p "color" in
  let size := get p "size" in
  let isLoading := get p "isLoading" in
  let isDisabled := get p "isDisabled" in
  let onClick := get p "onClick" in
  let props := mock_rest_props p in
  let a : object := ∅ in
  let a := <["onClick" := onClick]> a in
  let a := <["disabled" := isDisabled]> a in
  let a := <["data-testid" := VString "hero-button"]> a in
  let a := <["data-variant" := variant]> a in
  let a := <["data-color" := color]> a in
  let a := <["data-size" := size]> a in
  let a := <["data-loading" := isLoading]> a in
  let a := spread a props in
  jsx_dom "button" a [and_then isLoading loading_spinner; NValue children].

(** [render(<Button ...p />)] under the mock: the element [Button] returns
    is rendered by calling its component with its attribute object. *)
Definition render (p : object) : node :=
  match type (Button p) with
  | HeroUIButton => MockHeroUIButton (props (Button p))
  end.

Definition node_attrs (n : node) : object :=
  match n with
  | NValue _ => ∅
  | NElement _ a _ => a
  end.

Definition node_children (n : node) : list node :=
  match n with
  | NValue _ => []
  | NElement _ _ c => c
  end.

(** ** The filter demo of the home page *)

(** [Array.from(keys)[0]], [keys] given in iteration order. *)
Definition first_key (keys : list value) : value :=
  default VUndefined (head keys).

(** What both [onSelectionChange] handlers hand to their setter:
    [selected || 'all']. *)
Definition onSelectionChange (keys : list value) : value :=
  let selected := first_key keys in
  or_else selected (VString "all").

(** The block under the two selects: the "Active filters" panel. *)
Definition active_filters (category priority : value) : node :=
  and_then
    (or_else (strict_ne category (VString "all")) (strict_ne priority (VString "all")))
    (NElement "div"
       {[ "className" := VString "md:col-span-2 p-3 bg-gray-50 dark:bg-gray-900 rounded-lg" ]}
       [NElement "p" {[ "className" := VString "text-sm" ]}
          [NElement "strong" ∅ [NValue (VString "Active filters:")];
           NValue (VString " ");
           and_then (strict_ne category (VString "all"))
             (NElement "Chip"
                {[ "size" := VString "sm"; "variant" := VString "flat";
                   "color" := VString "primary"; "className" := VString "mr-1" ]}
                [NValue category]);
           and_then (strict_ne priority (VString "all"))
             (NElement "Chip"
                {[ "size" := VString "sm"; "variant" := VString "flat";
                   "color" := VString "secondary"; "className" := VString "mr-1" ]}
                [NValue priority; NValue (VString " priority")])]]).

(** ** The console filter of the test setup (jest.setup.js) *)

(** [s.includes(t)]: [t] occurs in [s] at some position. *)
Fixpoint includes (s t : string) : bool :=
  String.prefix t s ||
  match s with
  | EmptyString => false
  | String _ s' => includes s' t
  end.

Definition deprecation_marker : string := "Warning: ReactDOM.render is deprecated".

(** The test of the replacement [console.error]:
    [typeof args[0] === 'string' && args[0].includes(...)]. *)
Definition suppressed (args : list value) : bool :=
  match args with
  | VString s :: _ => includes s deprecation_marker
  | _ => false
  end.

(** What [console.error] currently holds: the function found at load time
    ([originalError]) or the replacement installed by [beforeAll]. *)
Inductive error_handler : Type := OriginalError | FilteringError.

(** The console: the handler in place, and the calls that reached the
    original [console.error], oldest first. *)
Record console : Type := Console {
  error : error_handler;
  printed : list (list value)
}.

Inductive setup_event : Type :=
  | BeforeAll
  | AfterAll
  | ConsoleError (args : list value).

(** [originalError.call(console, ...args)] *)
Definition originalError (args : list value) (c : console) : console :=
  Console (error c) (printed c ++ [args])%list.

Definition console_step (c : console) (e : setup_event) : console :=
  match e with
  | BeforeAll => Console FilteringError (printed c)
  | AfterAll => Console OriginalError (printed c)
  | ConsoleError args =>
      match error c with
      | OriginalError => originalError args c
      | FilteringError =>
          if suppressed args then c else originalError args c
      end
  end.

Definition console_run (c : console) (events : list setup_event) : console :=
  foldl console_step c events.

(** ** Basic facts *)

(** A literal key other than the four destructured ones is a passthrough
    key. *)
Ltac passthrough_key := by intros [? | [? | [? | ?]]].

(** A lookup in a literal object. *)
Ltac lookup_literal := vm_compute; reflexivity.

Section lookups.
Implicit Types (p : object) (k : string) (v : value).

Lemma get_Some p k v : p !! k = Some v → get p k = v.
Proof. unfold get. by intros ->. Qed.

Lemma get_None p k : p !! k = None → get p k = VUndefined.
Proof. unfold get. by intros ->. Qed.

Lemma rest_props_consumed p k : consumed k → rest_props p !! k = None.
Proof.
  unfold rest_props. intros [-> | [-> | [-> | ->]]];
    repeat first [ apply lookup_delete_eq | rewrite lookup_delete_ne by done ].
Qed.

Lemma rest_props_passthrough p k : ¬ consumed k → rest_props p !! k = p !! k.
Proof.
  unfold rest_props, consumed. intros Hk.
  rewrite !lookup_delete_ne; [done | naive_solver ..].
Qed.

Lemma rest_props_insert p k v :
  ¬ consumed k → rest_props (<[k:=v]> p) = <[k:=v]> (rest_props p).
Proof.
  unfold rest_props, consumed. intros Hk.
  rewrite !delete_insert_ne; [done | naive_solver ..].
Qed.

Lemma spread_lookup_Some (a b : object) k v :
  b !! k = Some v → spread a b !! k = Some v.
Proof. unfold spread. intros H. by apply lookup_union_Some_l. Qed.

Lemma spread_lookup_None (a b : object) k :
  b !! k = None → spread a b !! k = a !! k.
Proof. unfold spread. intros H. by rewrite lookup_union_r. Qed.

(** The attribute object read key by key. *)
Lemma Button_key_absent p : props (Button p) !! "key" = None.
Proof. unfold Button, jsx; cbn [props]. apply lookup_delete_eq. Qed.

Lemma Button_children p :
  props (Button p) !! "children" = Some (get p "children").
Proof.
  unfold Button, jsx; cbn [props]. rewrite lookup_delete_ne by done.
  apply lookup_insert_eq.
Qed.

Lemma Button_passthrough p k v :
  ¬ consumed k → k ≠ "key" → p !! k = Some v → props (Button p) !! k = Some v.
Proof.
  intros Hk Hkey Hv. unfold Button, jsx; cbn [props].
  rewrite lookup_delete_ne by done.
  rewrite lookup_insert_ne by (intros <-; apply Hk; unfold consumed; auto).
  apply spread_lookup_Some. by rewrite rest_props_passthrough.
Qed.

Lemma Button_variant p :
  props (Button p) !! "variant" =
    Some (VString (getHeroUIVariant (or_default (get p "variant") (VString "primary")))).
Proof.
  unfold Button, jsx; cbn [props]. rewrite lookup_delete_ne by done.
  rewrite lookup_insert_ne by done.
  rewrite spread_lookup_None by (apply rest_props_consumed; unfold consumed; auto).
  by rewrite !lookup_insert_ne, lookup_insert_eq by done.
Qed.

Lemma Button_size p :
  props (Button p) !! "size" = Some (or_default (get p "size") (VString "md")).
Proof.
  unfold Button, jsx; cbn [props]. rewrite lookup_delete_ne by done.
  rewrite lookup_insert_ne by done.
  rewrite spread_lookup_None by (apply rest_props_consumed; unfold consumed; auto).
  by rewrite !lookup_insert_ne, lookup_insert_eq by done.
Qed.

Lemma Button_color_mapped p :
  p !! "color" = None →
  props (Button p) !! "color" =
    Some (VString (getHeroUIColor (or_default (get p "variant") (VString "primary")))).
Proof.
  intros Hc. unfold Button, jsx; cbn [props]. rewrite lookup_delete_ne by done.
  rewrite lookup_insert_ne by done.
  rewrite spread_lookup_None
    by (rewrite rest_props_passthrough; [done | passthrough_key]).
  by rewrite !lookup_insert_ne, lookup_insert_eq by done.
Qed.

Lemma Button_isLoading_mapped p :
  p !! "isLoading" = None →
  props (Button p) !! "isLoading" = Some (or_default (get p "loading") (VBool false)).
Proof.
  intros Hc. unfold Button, jsx; cbn [props]. rewrite lookup_delete_ne by done.
  rewrite lookup_insert_ne by done.
  rewrite spread_lookup_None
    by (rewrite rest_props_passthrough; [done | passthrough_key]).
  by rewrite lookup_insert_eq.
Qed.

Lemma Button_loading_absent p : props (Button p) !! "loading" = None.
Proof.
  unfold Button, jsx; cbn [props]. rewrite lookup_delete_ne by done.
  rewrite lookup_insert_ne by done.
  rewrite spread_lookup_None by (apply rest_props_consumed; unfold consumed; auto).
  by rewrite !lookup_insert_ne by done.
Qed.

Lemma getHeroUI_declared (x : ButtonVariant) :
  (getHeroUIVariant (VString (variant_name x)), getHeroUIColor (VString (variant_name x)))
    = table_4_1 x.
Proof. by destruct x. Qed.

Lemma getHeroUI_fallback v :
  (∀ x : ButtonVariant, v ≠ VString (variant_name x)) →
  getHeroUIVariant v = "solid" ∧ getHeroUIColor v = "primary".
Proof.
  intros Hv. unfold getHeroUIVariant, getHeroUIColor.
  pose proof (Hv primary). pose proof (Hv secondary).
  pose proof (Hv outline). pose proof (Hv danger).
  repeat case_decide; simplify_eq/=; done.
Qed.
End lookups.

(** Running the store version on a store that holds the props object [p]
    at [arg]: the run returns, objects are appended and none is changed,
    and the element has the key and the attribute content of the pure
    [Button]. *)
Lemma Store_Button_run (σ : list object) (arg : nat) (p : object) :
  σ !! arg = Some p →
  ∃ (l : nat) (new : list object),
    Store.Button arg σ
      = Some (Store.Element HeroUIButton (key (Button p)) l, (σ ++ new)%list) ∧
    (σ ++ new)%list !! l = Some (props (Button p)).
Proof.
  intros Hp.
  unfold Store.Button, Store.jsx, mbind, mret, Store.M_bind, Store.M_ret,
    Store.load, Store.alloc.
  rewrite Hp. cbn beta iota zeta.
  rewrite lookup_app_r by lia. rewrite Nat.sub_diag. cbn [lookup list_lookup].
  rewrite length_app, Nat.add_1_r, <- app_assoc. cbn [app].
  set (a := <["children" := _]> _).
  assert (Ha : (σ ++ [rest_props p; a])%list !! S (List.length σ) = Some a).
  { rewrite lookup_app_r by lia.
    by replace (S (List.length σ) - List.length σ) with 1 by lia. }
  rewrite Ha. cbn beta iota.
  change (Button p) with (jsx HeroUIButton a). unfold jsx; cbn [key props].
  case_decide as Hkey.
  - exists (List.length (σ ++ [rest_props p; a])%list), [rest_props p; a; delete "key" a].
    rewrite <- app_assoc. cbn [app]. split; [done |].
    rewrite lookup_app_r by (rewrite length_app; cbn; lia).
    by replace (List.length (σ ++ [rest_props p; a])%list - List.length σ) with 2
      by (rewrite length_app; cbn; lia).
  - exists (S (List.length σ)), [rest_props p; a]. split; [done |].
    rewrite Ha. f_equal. symmetry. apply delete_id.
    by apply eq_None_not_Some.
Qed.

Lemma Store_Button_dangling (σ : list object) (arg : nat) :
  σ !! arg = None → Store.Button arg σ = None.
Proof.
  intros Hp. unfold Store.Button, mbind, Store.M_bind, Store.load. by rewrite Hp.
Qed.

(** ** Concrete scenarios *)

Example scenario_default :
  Button request_bare =
    jsx HeroUIButton
      {[ "variant" := VString "solid"; "color" := VString "primary";
         "size" := VString "md"; "isLoading" := VBool false;
         "children" := VString "Go" ]}.
Proof. lookup_literal. Qed.

Example scenario_outline_lg :
  Button request_outline_lg =
    jsx HeroUIButton
      {[ "variant" := VString "bordered"; "color" := VString "default";
         "size" := VString "lg"; "isLoading" := VBool false;
         "onClick" := VRef 7; "data-custom" := VString "x";
         "children" := VString "Go" ]}.
Proof. lookup_literal. Qed.

Example scenario_danger_loading :
  Button request_danger_loading =
    jsx HeroUIButton
      {[ "variant" := VString "solid"; "color" := VString "danger";
         "size" := VString "md"; "isLoading" := VBool true;
         "children" := VString "Go" ]}.
Proof. lookup_literal. Qed.

Example scenario_store :
  Store.Button 0 [request_bare] =
    Some (Store.Element HeroUIButton None 2,
          [request_bare; ∅; props (Button request_bare)]).
Proof. lookup_literal. Qed.

(** ** The mapping of the declared variants *)

(** C1, as stated, fails: for the request
    [<Button variant="secondary" color="danger">] the variant is one of the
    four declared ones, yet the colour handed to the library is [danger],
    not the [default] of the table's [secondary] row. *)
Lemma Button_table_color_overridden :
  request_secondary_danger !! "variant" = Some (VString (variant_name secondary)) ∧
  props (Button request_secondary_danger) !! "color" = Some (VString "danger") ∧
  props (Button request_secondary_danger) !! "color"
    ≠ Some (VString (table_4_1 secondary).2).
Proof. vm_compute. split_and!; [reflexivity | reflexivity | discriminate]. Qed.

(** C1, amended: for every render request whose variant is one of the four
    declared values, the style handed to the library is the style of the
    table's row, and, when the request has no [color] attribute of its own,
    the colour is the colour of the row. *)
Theorem Button_declared_variants (p : object) (x : ButtonVariant) :
  p !! "variant" = Some (VString (variant_name x)) →
  props (Button p) !! "variant" = Some (VString (table_4_1 x).1) ∧
  (p !! "color" = None →
   props (Button p) !! "color" = Some (VString (table_4_1 x).2)).
Proof.
  intros Hx. pose proof (getHeroUI_declared x) as Htab.
  rewrite Button_variant. split.
  - rewrite (get_Some _ _ _ Hx). cbn [or_default]. by rewrite <- Htab.
  - intros Hc. rewrite (Button_color_mapped _ Hc), (get_Some _ _ _ Hx).
    cbn [or_default]. by rewrite <- Htab.
Qed.

Lemma Button_declared_variants_witness :
  request_outline_lg !! "variant" = Some (VString (variant_name outline)) ∧
  props (Button request_outline_lg) !! "variant" = Some (VString "bordered") ∧
  props (Button request_outline_lg) !! "color" = Some (VString "default").
Proof.
  assert (Hx : request_outline_lg !! "variant" = Some (VString (variant_name outline)))
    by lookup_literal.
  destruct (Button_declared_variants request_outline_lg outline Hx) as [Hs Hc].
  split; [exact Hx | split; [exact Hs | apply Hc; lookup_literal]].
Defined.

(** ** The fallback *)

(** C2, as stated, fails: for [<Button variant="ghost" color="danger">] the
    variant is none of the four declared ones, and the pair handed to the
    library is (solid, danger), not the primary row's (solid, primary). *)
Lemma Button_fallback_color_overridden :
  (∀ x : ButtonVariant, VString "ghost" ≠ VString (variant_name x)) ∧
  request_ghost_danger !! "variant" = Some (VString "ghost") ∧
  props (Button request_ghost_danger) !! "variant" = Some (VString "solid") ∧
  props (Button request_ghost_danger) !! "color" = Some (VString "danger") ∧
  props (Button request_ghost_danger) !! "color" ≠ Some (VString "primary").
Proof.
  split; [by intros [] |].
  vm_compute. split_and!; [reflexivity | reflexivity | reflexivity | discriminate].
Qed.

(** C2, amended: for every variant value outside the four declared ones
    (any string, and any value that is not a string), both mapping
    functions return, without a failure branch, the primary row: the style
    handed to the library is [solid], and the colour is [primary] when the
    request has no [color] attribute of its own. *)
Theorem Button_fallback (p : object) (v : value) :
  (∀ x : ButtonVariant, v ≠ VString (variant_name x)) →
  p !! "variant" = Some v →
  (getHeroUIVariant v, getHeroUIColor v) = table_4_1 primary ∧
  props (Button p) !! "variant" = Some (VString "solid") ∧
  (p !! "color" = None → props (Button p) !! "color" = Some (VString "primary")).
Proof.
  intros Hout Hv.
  destruct (getHeroUI_fallback v Hout) as [Hs Hc].
  assert (Hd : getHeroUIVariant (or_default v (VString "primary")) = "solid"
             ∧ getHeroUIColor (or_default v (VString "primary")) = "primary").
  { destruct v; cbn [or_default]; auto. }
  destruct Hd as [Hs' Hc'].
  split; [by rewrite Hs, Hc |].
  split.
  - by rewrite Button_variant, (get_Some _ _ _ Hv), Hs'.
  - intros Hno. by rewrite (Button_color_mapped _ Hno), (get_Some _ _ _ Hv), Hc'.
Qed.

Lemma Button_fallback_witness :
  props (Button {[ "variant" := VString "ghost"; "children" := VString "Go" ]})
    !! "variant" = Some (VString "solid") ∧
  props (Button {[ "variant" := VNumber 3; "children" := VString "Go" ]})
    !! "color" = Some (VString "primary").
Proof.
  split.
  - apply (Button_fallback _ (VString "ghost")); [by intros [] | lookup_literal].
  - apply (Button_fallback _ (VNumber 3)); [by intros [] | lookup_literal ..].
Defined.

(** ** The busy flag *)

(** C3, as stated, fails: for [<Button loading isLoading={false}>] the
    loading input is [true] and the busy flag handed to the library is
    [false]. *)
Lemma Button_busy_overridden :
  request_loading_overridden !! "loading" = Some (VBool true) ∧
  props (Button request_loading_overridden) !! "isLoading" = Some (VBool false).
Proof. vm_compute. split; reflexivity. Qed.

(** C3, amended: for every render request that has no [isLoading] attribute
    of its own, the busy flag handed to the library equals the loading
    input: [loading = b] yields [b], and an omitted [loading] yields
    [false]. *)
Theorem Button_busy_flag (p : object) :
  p !! "isLoading" = None →
  (∀ b : bool, p !! "loading" = Some (VBool b) →
     props (Button p) !! "isLoading" = Some (VBool b)) ∧
  (p !! "loading" = None →
     props (Button p) !! "isLoading" = Some (VBool false)).
Proof.
  intros Hno. rewrite (Button_isLoading_mapped _ Hno). split.
  - intros b Hb. by rewrite (get_Some _ _ _ Hb).
  - intros Hb. by rewrite (get_None _ _ Hb).
Qed.

Lemma Button_busy_flag_witness :
  props (Button request_danger_loading) !! "isLoading" = Some (VBool true) ∧
  props (Button request_bare) !! "isLoading" = Some (VBool false).
Proof.
  split.
  - apply (Button_busy_flag request_danger_loading); lookup_literal.
  - apply (Button_busy_flag request_bare); lookup_literal.
Defined.

(** ** The size *)

(** C4: for every size value among [sm], [md], [lg], whatever the variant
    and the other attributes of the request, the size handed to the library
    is the input size. *)
Theorem Button_size_identity (p : object) (s : ButtonSize) :
  p !! "size" = Some (VString (size_name s)) →
  props (Button p) !! "size" = Some (VString (size_name s)).
Proof.
  intros Hs. by rewrite Button_size, (get_Some _ _ _ Hs).
Qed.

Lemma Button_size_identity_witness :
  request_outline_lg !! "size" = Some (VString (size_name lg)) ∧
  props (Button request_outline_lg) !! "size" = Some (VString "lg").
Proof.
  assert (Hs : request_outline_lg !! "size" = Some (VString (size_name lg)))
    by lookup_literal.
  split; [exact Hs | exact (Button_size_identity request_outline_lg lg Hs)].
Defined.

(** ** The defaults *)

(** C5, as stated, fails: [<Button color="danger" isLoading>] omits
    variant, size and loading, and is rendered with colour [danger] and
    busy flag [true]. *)
Lemma Button_defaults_overridden :
  request_bare_overridden !! "variant" = None ∧
  request_bare_overridden !! "size" = None ∧
  request_bare_overridden !! "loading" = None ∧
  props (Button request_bare_overridden) !! "color" = Some (VString "danger") ∧
  props (Button request_bare_overridden) !! "isLoading" = Some (VBool true).
Proof. vm_compute. split_and!; reflexivity. Qed.

(** C5, amended: when a render request omits variant, size and loading, the
    style is [solid] and the size is [md]; the colour is [primary] when the
    request has no [color] attribute of its own, and the busy flag is
    [false] when it has no [isLoading] attribute of its own. *)
Theorem Button_defaults (p : object) :
  p !! "variant" = None →
  p !! "size" = None →
  p !! "loading" = None →
  props (Button p) !! "variant" = Some (VString "solid") ∧
  props (Button p) !! "size" = Some (VString "md") ∧
  (p !! "color" = None → props (Button p) !! "color" = Some (VString "primary")) ∧
  (p !! "isLoading" = None → props (Button p) !! "isLoading" = Some (VBool false)).
Proof.
  intros Hv Hs Hl. split_and!.
  - by rewrite Button_variant, (get_None _ _ Hv).
  - by rewrite Button_size, (get_None _ _ Hs).
  - intros Hc. by rewrite (Button_color_mapped _ Hc), (get_None _ _ Hv).
  - intros Hb. by rewrite (Button_isLoading_mapped _ Hb), (get_None _ _ Hl).
Qed.

Lemma Button_defaults_witness :
  props (Button request_bare) !! "variant" = Some (VString "solid") ∧
  props (Button request_bare) !! "size" = Some (VString "md") ∧
  props (Button request_bare) !! "color" = Some (VString "primary") ∧
  props (Button request_bare) !! "isLoading" = Some (VBool false).
Proof.
  destruct (Button_defaults request_bare) as (Hv & Hs & Hc & Hb);
    [lookup_literal .. |].
  split_and!; [exact Hv | exact Hs | apply Hc | apply Hb]; lookup_literal.
Defined.

(** ** Forwarding *)

(** Adding or replacing a passthrough attribute changes the attribute
    object at that key and nowhere else. *)
Lemma Button_insert_passthrough (p : object) (k : string) (v : value) :
  ¬ consumed k →
  k ≠ "key" →
  props (Button (<[k:=v]> p)) = <[k:=v]> (props (Button p)).
Proof.
  intros Hk Hkey.
  assert (Hne : ∀ c, consumed c → k ≠ c) by (intros c Hc ->; by apply Hk).
  assert (Hget : ∀ c, consumed c → get (<[k:=v]> p) c = get p c).
  { intros c Hc. unfold get. by rewrite lookup_insert_ne by by apply Hne. }
  unfold Button, jsx; cbn [props].
  rewrite !Hget by (unfold consumed; auto).
  rewrite (rest_props_insert _ _ _ Hk). unfold spread.
  rewrite <- insert_union_l.
  rewrite (insert_insert_ne _ "children" k)
    by (intros Heq; apply Hk; unfold consumed; auto).
  by rewrite delete_insert_ne.
Qed.

(** The colour entry is determined by the request's variant and by its own
    [color] attribute. *)
Lemma Button_color_determined (p q : object) :
  q !! "variant" = p !! "variant" →
  q !! "color" = p !! "color" →
  props (Button q) !! "color" = props (Button p) !! "color".
Proof.
  intros Hv Hc. destruct (p !! "color") as [c |] eqn:Hp.
  - rewrite (Button_passthrough p "color" c), (Button_passthrough q "color" c);
      first [ done | passthrough_key ].
  - rewrite (Button_color_mapped _ Hp), (Button_color_mapped _ Hc).
    unfold get. by rewrite Hv.
Qed.

(** C6, as stated, fails at one key: a [key] property of the request is not
    one of the four destructured keys, yet it is not found in the attribute
    object handed to the library; the JSX runtime takes it as the element's
    key. *)
Lemma Button_key_not_forwarded :
  ¬ consumed "key" ∧
  request_keyed !! "key" = Some (VString "k1") ∧
  props (Button request_keyed) !! "key" = None ∧
  key (Button request_keyed) = Some (VString "k1").
Proof. split; [passthrough_key | vm_compute; split_and!; reflexivity]. Qed.

(** C6, amended: every passthrough attribute of the request other than the
    reserved [key], that is every key other than variant, size, loading,
    children and key, is found with its value unchanged in the attribute
    object handed to the library; and it takes no part in the mapping: the
    style entry is determined by the request's variant alone, the colour
    entry by the variant and the request's own [color], and giving the
    passthrough attribute any other value changes the attribute object at
    that key only. *)
Theorem Button_forwards_passthrough (p : object) (k : string) (v : value) :
  ¬ consumed k →
  k ≠ "key" →
  p !! k = Some v →
  props (Button p) !! k = Some v ∧
  (∀ q : object, q !! "variant" = p !! "variant" →
     props (Button q) !! "variant" = props (Button p) !! "variant") ∧
  (∀ q : object, q !! "variant" = p !! "variant" → q !! "color" = p !! "color" →
     props (Button q) !! "color" = props (Button p) !! "color") ∧
  (∀ w : value, props (Button (<[k:=w]> p)) = <[k:=w]> (props (Button p))).
Proof.
  intros Hk Hkey Hv. split_and!.
  - by apply Button_passthrough.
  - intros q Hq. rewrite !Button_variant. unfold get. by rewrite Hq.
  - intros q. apply Button_color_determined.
  - intros w. by apply Button_insert_passthrough.
Qed.

Lemma Button_forwards_passthrough_witness :
  props (Button request_outline_lg) !! "onClick" = Some (VRef 7) ∧
  props (Button request_secondary_danger) !! "color" = Some (VString "danger").
Proof.
  split.
  - refine (proj1 (Button_forwards_passthrough
                     request_outline_lg "onClick" (VRef 7) _ _ _));
      [passthrough_key | done | lookup_literal].
  - refine (proj1 (Button_forwards_passthrough
                     request_secondary_danger "color" (VString "danger") _ _ _));
      [passthrough_key | done | lookup_literal].
Defined.

(** ** Attributes that collide with the mapped ones *)

(** C8: a [color] or [isLoading] attribute of the request itself is handed
    to the library in place of the mapped colour or busy flag, the spread
    being written after them; without such an attribute the mapped colour
    and the loading input are handed over; and with one the rule is lost:
    any value other than the mapped one displaces it. *)
Theorem Button_passthrough_wins (p : object) :
  let variant := or_default (get p "variant") (VString "primary") in
  let loading := or_default (get p "loading") (VBool false) in
  (∀ c, p !! "color" = Some c → props (Button p) !! "color" = Some c) ∧
  (∀ b, p !! "isLoading" = Some b → props (Button p) !! "isLoading" = Some b) ∧
  (p !! "color" = None →
     props (Button p) !! "color" = Some (VString (getHeroUIColor variant))) ∧
  (p !! "isLoading" = None →
     props (Button p) !! "isLoading" = Some loading) ∧
  (∀ c, c ≠ VString (getHeroUIColor variant) →
     props (Button (<["color" := c]> p)) !! "color"
       ≠ Some (VString (getHeroUIColor variant))) ∧
  (∀ b, b ≠ loading →
     props (Button (<["isLoading" := b]> p)) !! "isLoading" ≠ Some loading).
Proof.
  assert (Hcol : ¬ consumed "color") by passthrough_key.
  assert (Hbusy : ¬ consumed "isLoading") by passthrough_key.
  cbn zeta. split_and!.
  - intros c Hc. by apply Button_passthrough.
  - intros b Hb. by apply Button_passthrough.
  - apply Button_color_mapped.
  - apply Button_isLoading_mapped.
  - intros c Hc. rewrite (Button_insert_passthrough _ _ _ Hcol), lookup_insert_eq by done.
    congruence.
  - intros b Hb. rewrite (Button_insert_passthrough _ _ _ Hbusy), lookup_insert_eq by done.
    congruence.
Qed.

Lemma Button_passthrough_wins_witness :
  props (Button request_secondary_danger) !! "color" = Some (VString "danger") ∧
  props (Button request_loading_overridden) !! "isLoading" = Some (VBool false) ∧
  props (Button request_danger_loading) !! "color" = Some (VString "danger") ∧
  props (Button request_danger_loading) !! "isLoading" = Some (VBool true).
Proof.
  split_and!.
  - apply (Button_passthrough_wins request_secondary_danger). lookup_literal.
  - apply (Button_passthrough_wins request_loading_overridden). lookup_literal.
  - destruct (Button_passthrough_wins request_danger_loading) as (_ & _ & H & _).
    apply H. lookup_literal.
  - destruct (Button_passthrough_wins request_danger_loading) as (_ & _ & _ & H & _).
    apply H. lookup_literal.
Defined.

(** ** The destructured keys *)

(** C9: the rest object spread into the library's attributes holds none of
    the caller-facing keys variant, size, loading, children. Hence the
    attribute object has no [loading] entry, and its [variant] entry is the
    one the component writes: one of the library's styles [solid], [flat],
    [bordered], never one of the four custom variant names. *)
Theorem Button_consumed_keys (p : object) :
  (∀ k, consumed k → rest_props p !! k = None) ∧
  props (Button p) !! "loading" = None ∧
  ∃ s : string,
    props (Button p) !! "variant" = Some (VString s) ∧
    (s = "solid" ∨ s = "flat" ∨ s = "bordered") ∧
    ∀ x : ButtonVariant, s ≠ variant_name x.
Proof.
  split_and!.
  - intros k. apply rest_props_consumed.
  - apply Button_loading_absent.
  - eexists. split; [apply Button_variant |].
    unfold getHeroUIVariant.
    repeat case_decide; (split; [auto | by intros []]).
Qed.

(** ** The children *)

(** C10: whatever the variant, size, loading and passthrough attributes,
    the children of the request are handed to the library as they are: the
    [children] entry of the attribute object is the value read from the
    request's [children]. *)
Theorem Button_children_verbatim (p : object) :
  props (Button p) !! "children" = Some (get p "children") ∧
  (∀ c : value, p !! "children" = Some c →
     props (Button p) !! "children" = Some c).
Proof.
  split; [apply Button_children |].
  intros c Hc. by rewrite Button_children, (get_Some _ _ _ Hc).
Qed.

Lemma Button_children_verbatim_witness :
  props (Button request_outline_lg) !! "children" = Some (VString "Go") ∧
  props (Button request_secondary_danger) !! "children" = Some (VString "Go").
Proof.
  split.
  - apply (Button_children_verbatim request_outline_lg). lookup_literal.
  - apply (Button_children_verbatim request_secondary_danger). lookup_literal.
Defined.

(** ** Purity *)

(** C7: the component is a deterministic function of the content of the
    props object it is called with, and has no effect on existing state.
    Two invocations on props objects with equal content, in any two stores
    and at any two references, both return; they return elements of the
    same component whose attribute objects have equal content, the one
    [Button] computes from that content alone; and each leaves every object
    that existed before the call, the props object included, as it was. *)
Theorem Button_pure_deterministic (σ1 σ2 : list object) (l1 l2 : nat) (p : object) :
  σ1 !! l1 = Some p →
  σ2 !! l2 = Some p →
  ∃ (e1 e2 : Store.element) (σ1' σ2' : list object),
    Store.Button l1 σ1 = Some (e1, σ1') ∧
    Store.Button l2 σ2 = Some (e2, σ2') ∧
    Store.type e1 = Store.type e2 ∧
    σ1' !! Store.props e1 = Some (props (Button p)) ∧
    σ2' !! Store.props e2 = Some (props (Button p)) ∧
    (∀ l o, σ1 !! l = Some o → σ1' !! l = Some o) ∧
    (∀ l o, σ2 !! l = Some o → σ2' !! l = Some o).
Proof.
  intros H1 H2.
  destruct (Store_Button_run σ1 l1 p H1) as (a1 & new1 & Hrun1 & Hprops1).
  destruct (Store_Button_run σ2 l2 p H2) as (a2 & new2 & Hrun2 & Hprops2).
  eexists _, _, _, _. split_and!.
  - exact Hrun1.
  - exact Hrun2.
  - reflexivity.
  - exact Hprops1.
  - exact Hprops2.
  - intros l o Hl. by apply lookup_app_l_Some.
  - intros l o Hl. by apply lookup_app_l_Some.
Qed.

Lemma Button_pure_deterministic_witness :
  ∃ (e1 e2 : Store.element) (σ1' σ2' : list object),
    Store.Button 0 [request_bare] = Some (e1, σ1') ∧
    Store.Button 1 [request_outline_lg; request_bare] = Some (e2, σ2') ∧
    Store.type e1 = Store.type e2 ∧
    σ1' !! Store.props e1 = Some (props (Button request_bare)) ∧
    σ2' !! Store.props e2 = Some (props (Button request_bare)) ∧
    (∀ l o, [request_bare] !! l = Some o → σ1' !! l = Some o) ∧
    (∀ l o, [request_outline_lg; request_bare] !! l = Some o → σ2' !! l = Some o).
Proof.
  apply (Button_pure_deterministic
           [request_bare] [request_outline_lg; request_bare] 0 1 request_bare);
    reflexivity.
Defined.

(** ** Further properties of [Button] *)

#[global] Instance consumed_dec (k : string) : Decision (consumed k).
Proof. unfold consumed. apply _. Defined.

(** The keys [Button] writes itself or removes from the request. *)
Lemma Button_other_key (p : object) (k : string) :
  ¬ consumed k → k ≠ "key" → k ≠ "color" → k ≠ "isLoading" →
  props (Button p) !! k = p !! k.
Proof.
  intros Hk Hkey Hc Hl.
  assert (Hne : ∀ c, consumed c → c ≠ k) by (intros c Hcons ->; by apply Hk).
  unfold Button, jsx; cbn [props]. rewrite lookup_delete_ne by done.
  rewrite lookup_insert_ne by (apply Hne; unfold consumed; auto).
  unfold spread. rewrite lookup_union, (rest_props_passthrough _ _ Hk).
  rewrite !lookup_insert_ne, lookup_empty
    by first [ done | apply Hne; unfold consumed; auto ].
  by destruct (p !! k).
Qed.

(** [Button] reads its request through the four destructured properties
    and the rest object only. *)
Lemma Button_ext (p q : object) :
  (∀ c, consumed c → get p c = get q c) →
  rest_props p = rest_props q →
  Button p = Button q.
Proof.
  intros Hget Hrest. unfold Button.
  rewrite !(Hget _) by (unfold consumed; auto). by rewrite Hrest.
Qed.

(** X1: the attribute object handed to the library has exactly the five
    keys the component writes (variant, color, size, isLoading, children)
    and the keys of the request other than the four destructured ones and
    the reserved [key]: no other key is added, [key] is never among them,
    and no other passthrough key is dropped. *)
Theorem Button_attribute_keys (p : object) :
  dom (props (Button p)) =
    ({[ "variant"; "color"; "size"; "isLoading"; "children" ]} : gset string)
    ∪ (dom p ∖ {[ "variant"; "size"; "children"; "loading"; "key" ]}).
Proof.
  unfold Button, jsx, spread, rest_props; cbn [props].
  rewrite dom_delete_L.
  rewrite !dom_insert_L, dom_union_L, !dom_insert_L, !dom_delete_L, dom_empty_L.
  set_solver.
Qed.

(** X2: for each of the four destructured keys, passing [undefined]
    explicitly renders the same element as leaving the key out. *)
Theorem Button_undefined_is_omitted (p : object) (k : string) :
  consumed k →
  Button (<[k := VUndefined]> p) = Button (delete k p).
Proof.
  intros Hk. apply Button_ext.
  - intros c Hc. unfold get. destruct (decide (c = k)) as [-> | Hne].
    + by rewrite lookup_insert_eq, lookup_delete_eq.
    + by rewrite lookup_insert_ne, lookup_delete_ne.
  - apply map_eq. intros j. destruct (decide (consumed j)) as [Hj | Hj].
    + by rewrite !rest_props_consumed.
    + rewrite !rest_props_passthrough by done.
      assert (k ≠ j) by (intros ->; by apply Hj).
      by rewrite lookup_insert_ne, lookup_delete_ne.
Qed.

Lemma Button_undefined_is_omitted_witness :
  Button (<["size" := VUndefined]> request_outline_lg)
    = Button (delete "size" request_outline_lg) ∧
  props (Button (<["size" := VUndefined]> request_outline_lg)) !! "size"
    = Some (VString "md").
Proof.
  assert (H : Button (<["size" := VUndefined]> request_outline_lg)
              = Button (delete "size" request_outline_lg))
    by (apply Button_undefined_is_omitted; unfold consumed; auto).
  split; [exact H | rewrite H; lookup_literal].
Defined.

(** X3: the defaults replace [undefined] and nothing else. Any other value
    of [size], [null] and values outside the declared sizes included, is
    handed to the library as it is, and so is any other value of [loading]
    as the busy flag (when the request has no [isLoading] of its own):
    nothing is validated or coerced. *)
Theorem Button_defined_values_verbatim (p : object) (v : value) :
  v ≠ VUndefined →
  (p !! "size" = Some v → props (Button p) !! "size" = Some v) ∧
  (p !! "loading" = Some v → p !! "isLoading" = None →
     props (Button p) !! "isLoading" = Some v).
Proof.
  intros Hv. split.
  - intros Hs. rewrite Button_size, (get_Some _ _ _ Hs). by destruct v.
  - intros Hl Hno. rewrite (Button_isLoading_mapped _ Hno), (get_Some _ _ _ Hl).
    by destruct v.
Qed.

Lemma Button_defined_values_verbatim_witness :
  props (Button {[ "size" := VNull; "children" := VString "Go" ]}) !! "size"
    = Some VNull ∧
  props (Button {[ "size" := VString "xl"; "children" := VString "Go" ]}) !! "size"
    = Some (VString "xl") ∧
  props (Button {[ "loading" := VNumber 1; "children" := VString "Go" ]}) !! "isLoading"
    = Some (VNumber 1).
Proof.
  split_and!.
  - apply (Button_defined_values_verbatim _ VNull); [done | lookup_literal].
  - apply (Button_defined_values_verbatim _ (VString "xl")); [done | lookup_literal].
  - apply (Button_defined_values_verbatim _ (VNumber 1)); [done | lookup_literal ..].
Defined.

(** X4: two requests with declared variants and no [color] of their own
    that are handed to the library with the same style and the same colour
    have the same variant: the four declared variants are rendered in four
    different ways. *)
Theorem Button_declared_variants_distinct (p q : object) (x y : ButtonVariant) :
  p !! "variant" = Some (VString (variant_name x)) →
  q !! "variant" = Some (VString (variant_name y)) →
  p !! "color" = None →
  q !! "color" = None →
  props (Button p) !! "variant" = props (Button q) !! "variant" →
  props (Button p) !! "color" = props (Button q) !! "color" →
  x = y.
Proof.
  intros Hx Hy Hp Hq.
  rewrite !Button_variant, (Button_color_mapped _ Hp), (Button_color_mapped _ Hq).
  rewrite (get_Some _ _ _ Hx), (get_Some _ _ _ Hy).
  destruct x, y; vm_compute; intros Hs Hc; congruence.
Qed.

Lemma Button_declared_variants_distinct_witness :
  primary = primary.
Proof.
  apply (Button_declared_variants_distinct
           {[ "variant" := VString "primary"; "children" := VString "Go" ]}
           {[ "variant" := VString "primary"; "onClick" := VRef 1 ]}
           primary primary); lookup_literal.
Defined.

(** ** [Button] rendered under the tests' HeroUI button *)

#[global] Instance mock_consumed_dec (k : string) : Decision (mock_consumed k).
Proof. unfold mock_consumed. apply _. Defined.

Ltac mock_key := unfold mock_consumed; naive_solver.

Lemma mock_rest_props_lookup (p : object) (k : string) :
  mock_rest_props p !! k = if decide (mock_consumed k) then None else p !! k.
Proof.
  unfold mock_rest_props. case_decide as Hk.
  - unfold mock_consumed in Hk.
    destruct Hk as [-> | [-> | [-> | [-> | [-> | [-> | ->]]]]]];
      repeat first [ apply lookup_delete_eq | rewrite lookup_delete_ne by done ].
  - rewrite !lookup_delete_ne; [done | intros <-; apply Hk; unfold mock_consumed; auto 10 ..].
Qed.


(** An attribute the mock writes itself, read back: the value written,
    unless the rest object carries the same key. Stated for props without
    a [key], as the props of an element are. *)
Lemma Mock_attrs_lookup (p : object) (k : string) :
  p !! "key" = None →
  node_attrs (MockHeroUIButton p) !! k =
    match mock_rest_props p !! k with
    | Some v => Some v
    | None =>
        if decide (k = "data-loading") then Some (get p "isLoading")
        else if decide (k = "data-size") then Some (get p "size")
        else if decide (k = "data-color") then Some (get p "color")
        else if decide (k = "data-variant") then Some (get p "variant")
        else if decide (k = "data-testid") then Some (VString "hero-button")
        else if decide (k = "disabled") then Some (get p "isDisabled")
        else if decide (k = "onClick") then Some (get p "onClick")
        else None
    end.
Proof.
  intros Hkey. unfold MockHeroUIButton, jsx_dom, spread; cbn [node_attrs].
  rewrite delete_id.
  2:{ apply lookup_union_None. split.
      - rewrite mock_rest_props_lookup. by case_decide.
      - by rewrite !lookup_insert_ne, lookup_empty by done. }
  destruct (mock_rest_props p !! k) as [v |] eqn:Hk.
  { by apply lookup_union_Some_l. }
  rewrite lookup_union_r by done.
  rewrite !lookup_insert, lookup_empty.
  repeat case_decide; simplify_eq; done.
Qed.

Lemma render_unfold (p : object) : render p = MockHeroUIButton (props (Button p)).
Proof. reflexivity. Qed.

(** X5: what the tests read back. For every request, the [data-variant]
    and [data-size] attributes of the rendered button are the mapped style
    and the size, and [data-color] and [data-loading] are the mapped colour
    and the loading input when the request has no [color] or [isLoading] of
    its own; each provided the request does not pass that [data-]
    attribute itself. *)
Theorem render_data_attributes (p : object) :
  let variant := or_default (get p "variant") (VString "primary") in
  let size := or_default (get p "size") (VString "md") in
  let loading := or_default (get p "loading") (VBool false) in
  let a := node_attrs (render p) in
  (p !! "data-variant" = None →
     a !! "data-variant" = Some (VString (getHeroUIVariant variant))) ∧
  (p !! "data-size" = None → a !! "data-size" = Some size) ∧
  (p !! "data-color" = None → p !! "color" = None →
     a !! "data-color" = Some (VString (getHeroUIColor variant))) ∧
  (p !! "data-loading" = None → p !! "isLoading" = None →
     a !! "data-loading" = Some loading).
Proof.
  cbn zeta. rewrite render_unfold.
  assert (Hrest : ∀ k, ¬ mock_consumed k → ¬ consumed k →
            k ≠ "key" → k ≠ "color" → k ≠ "isLoading" → p !! k = None →
            mock_rest_props (props (Button p)) !! k = None).
  { intros k Hm Hc H0 H1 H2 Hk. rewrite mock_rest_props_lookup.
    case_decide; [done |]. by rewrite Button_other_key. }
  split_and!.
  - intros Hd. rewrite Mock_attrs_lookup, Hrest
      by (done || mock_key || passthrough_key || apply Button_key_absent).
    repeat case_decide; simplify_eq. by rewrite (get_Some _ _ _ (Button_variant p)).
  - intros Hd. rewrite Mock_attrs_lookup, Hrest
      by (done || mock_key || passthrough_key || apply Button_key_absent).
    repeat case_decide; simplify_eq. by rewrite (get_Some _ _ _ (Button_size p)).
  - intros Hd Hc. rewrite Mock_attrs_lookup, Hrest
      by (done || mock_key || passthrough_key || apply Button_key_absent).
    repeat case_decide; simplify_eq. by rewrite (get_Some _ _ _ (Button_color_mapped _ Hc)).
  - intros Hd Hl. rewrite Mock_attrs_lookup, Hrest
      by (done || mock_key || passthrough_key || apply Button_key_absent).
    repeat case_decide; simplify_eq. by rewrite (get_Some _ _ _ (Button_isLoading_mapped _ Hl)).
Qed.

Lemma render_data_attributes_witness :
  node_attrs (render request_danger_loading) !! "data-variant" = Some (VString "solid") ∧
  node_attrs (render request_danger_loading) !! "data-color" = Some (VString "danger") ∧
  node_attrs (render request_danger_loading) !! "data-size" = Some (VString "md") ∧
  node_attrs (render request_danger_loading) !! "data-loading" = Some (VBool true).
Proof.
  destruct (render_data_attributes request_danger_loading) as (Hv & Hs & Hc & Hl).
  split_and!; [apply Hv | apply Hc | apply Hs | apply Hl]; lookup_literal.
Defined.



(** X7: the rendered button never carries the wrapper's or the library's
    own property names as attributes: no [variant], [color], [size],
    [loading], [isLoading], [isDisabled] or [children] attribute, whatever
    the request. *)
Theorem render_no_raw_properties (p : object) (k : string) :
  k ∈ ["variant"; "color"; "size"; "loading"; "isLoading"; "isDisabled"; "children"] →
  node_attrs (render p) !! k = None.
Proof.
  intros Hk.
  rewrite render_unfold, Mock_attrs_lookup, mock_rest_props_lookup
    by apply Button_key_absent.
  destruct (decide (k = "loading")) as [-> | Hne].
  - case_decide; [done |]. rewrite Button_loading_absent. by repeat case_decide.
  - rewrite decide_True.
    + repeat case_decide; simplify_eq; try done;
        repeat (apply elem_of_cons in Hk as [Hk | Hk]; [done |]);
        by apply elem_of_nil in Hk.
    + repeat (apply elem_of_cons in Hk as [-> | Hk]; [mock_key || done |]).
      by apply elem_of_nil in Hk.
Qed.

Lemma render_no_raw_properties_witness :
  node_attrs (render request_secondary_danger) !! "color" = None ∧
  node_attrs (render request_danger_loading) !! "loading" = None.
Proof.
  split; apply render_no_raw_properties; set_solver.
Defined.

(** X8: for every request, the rendered button has two children, the
    caller's children last. The first child is the loading spinner exactly
    when the busy flag is truthy, and the busy flag's falsy value itself
    otherwise (nothing is shown for [false]); the busy flag is the
    request's own [isLoading] when it has one, and its loading input, by
    default [false], when it has none. *)
Theorem render_children (p : object) :
  let loading := or_default (get p "loading") (VBool false) in
  let busy := default loading (p !! "isLoading") in
  node_children (render p) =
    [ (if truthy busy then loading_spinner else NValue busy);
      NValue (get p "children") ].
Proof.
  cbn zeta. rewrite render_unfold.
  unfold MockHeroUIButton, jsx_dom; cbn [node_children]. unfold and_then.
  rewrite (get_Some _ _ _ (Button_children p)).
  destruct (p !! "isLoading") as [b |] eqn:Hl; cbn [default].
  - by rewrite (get_Some _ _ _ (Button_passthrough p "isLoading" b
                                  ltac:(passthrough_key) ltac:(done) Hl)).
  - by rewrite (get_Some _ _ _ (Button_isLoading_mapped _ Hl)).
Qed.

Lemma render_children_witness :
  node_children (render request_danger_loading)
    = [loading_spinner; NValue (VString "Go")] ∧
  node_children (render request_bare)
    = [NValue (VBool false); NValue (VString "Go")] ∧
  node_children (render request_loading_overridden)
    = [NValue (VBool false); NValue (VString "Go")] ∧
  node_children (render request_bare_overridden)
    = [loading_spinner; NValue (VString "Go")].
Proof.
  split_and!.
  - exact (render_children request_danger_loading).
  - exact (render_children request_bare).
  - exact (render_children request_loading_overridden).
  - exact (render_children request_bare_overridden).
Defined.

(** X9: the click handler of the request always reaches the rendered
    button as its [onClick]; the [disabled] attribute is the request's
    [isDisabled] unless the request passes [disabled] itself, which then
    takes its place; and the test id is [hero-button] unless the request
    passes its own [data-testid]. *)
Theorem render_click_and_disabled (p : object) :
  let a := node_attrs (render p) in
  a !! "onClick" = Some (get p "onClick") ∧
  (p !! "disabled" = None → a !! "disabled" = Some (get p "isDisabled")) ∧
  (∀ d, p !! "disabled" = Some d → a !! "disabled" = Some d) ∧
  (p !! "data-testid" = None → a !! "data-testid" = Some (VString "hero-button")).
Proof.
  cbn zeta.
  assert (HonClick : props (Button p) !! "onClick" = p !! "onClick")
    by (by apply Button_other_key; [passthrough_key | | |]).
  assert (HisDisabled : props (Button p) !! "isDisabled" = p !! "isDisabled")
    by (by apply Button_other_key; [passthrough_key | | |]).
  assert (Hdisabled : props (Button p) !! "disabled" = p !! "disabled")
    by (by apply Button_other_key; [passthrough_key | | |]).
  assert (Htestid : props (Button p) !! "data-testid" = p !! "data-testid")
    by (by apply Button_other_key; [passthrough_key | | |]).
  rewrite render_unfold. split_and!.
  - rewrite Mock_attrs_lookup, mock_rest_props_lookup by apply Button_key_absent.
    rewrite decide_True by mock_key. repeat case_decide; simplify_eq.
    unfold get. by rewrite HonClick.
  - intros Hd.
    rewrite Mock_attrs_lookup, mock_rest_props_lookup by apply Button_key_absent.
    rewrite decide_False by mock_key. rewrite Hdisabled, Hd.
    repeat case_decide; simplify_eq. unfold get. by rewrite HisDisabled.
  - intros d Hd.
    rewrite Mock_attrs_lookup, mock_rest_props_lookup by apply Button_key_absent.
    rewrite decide_False by mock_key. by rewrite Hdisabled, Hd.
  - intros Ht.
    rewrite Mock_attrs_lookup, mock_rest_props_lookup by apply Button_key_absent.
    rewrite decide_False by mock_key. rewrite Htestid, Ht.
    by repeat case_decide; simplify_eq.
Qed.

Lemma render_click_and_disabled_witness :
  node_attrs (render request_outline_lg) !! "onClick" = Some (VRef 7) ∧
  node_attrs (render request_danger_loading) !! "disabled" = Some VUndefined ∧
  node_attrs (render {[ "disabled" := VBool true; "children" := VString "Go" ]})
    !! "disabled" = Some (VBool true).
Proof.
  destruct (render_click_and_disabled request_outline_lg) as (Hclick & _).
  destruct (render_click_and_disabled request_danger_loading) as (_ & Hnone & _).
  destruct (render_click_and_disabled
              {[ "disabled" := VBool true; "children" := VString "Go" ]})
    as (_ & _ & Hsome & _).
  split_and!.
  - rewrite Hclick. lookup_literal.
  - rewrite Hnone; lookup_literal.
  - apply Hsome. lookup_literal.
Defined.

(** ** The filter demo *)

(** X10: the value a selection handler hands to its setter is never falsy:
    it is the first selected key when that key is truthy, and ['all'] when
    the selection is empty or its first key is falsy (the empty string). *)
Theorem onSelectionChange_never_empty (keys : list value) :
  truthy (onSelectionChange keys) = true ∧
  (keys = [] → onSelectionChange keys = VString "all") ∧
  (∀ k rest, keys = k :: rest →
     onSelectionChange keys = if truthy k then k else VString "all").
Proof.
  unfold onSelectionChange, or_else, first_key. split_and!.
  - destruct keys as [| k rest]; cbn; [done |]. by destruct (truthy k) eqn:Hk.
  - by intros ->.
  - by intros k rest ->.
Qed.

Lemma onSelectionChange_never_empty_witness :
  onSelectionChange [] = VString "all" ∧
  onSelectionChange [VString "backend"; VString "design"] = VString "backend" ∧
  onSelectionChange [VString ""] = VString "all".
Proof.
  destruct (onSelectionChange_never_empty []) as (_ & Hnil & _).
  destruct (onSelectionChange_never_empty [VString "backend"; VString "design"])
    as (_ & _ & Hfirst).
  destruct (onSelectionChange_never_empty [VString ""]) as (_ & _ & Hfalsy).
  split_and!.
  - by apply Hnil.
  - by rewrite (Hfirst _ _ eq_refl).
  - by rewrite (Hfalsy _ _ eq_refl).
Defined.

(** X11: the "Active filters" panel is shown exactly when one of the two
    filters is not ['all'], and it then holds one chip per such filter, so
    a panel that is shown always holds at least one chip. *)
Theorem active_filters_chips (category priority : value) :
  (active_filters category priority = NValue (VBool false)
     ↔ category = VString "all" ∧ priority = VString "all") ∧
  count_tag "Chip" (active_filters category priority) =
    (if decide (category = VString "all") then 0 else 1) +
    (if decide (priority = VString "all") then 0 else 1).
Proof.
  unfold active_filters, and_then, or_else, strict_ne.
  destruct (decide (category = VString "all")) as [Hc | Hc];
    destruct (decide (priority = VString "all")) as [Hp | Hp];
    rewrite ?(bool_decide_eq_true_2 _ Hc), ?(bool_decide_eq_false_2 _ Hc),
      ?(bool_decide_eq_true_2 _ Hp), ?(bool_decide_eq_false_2 _ Hp);
    cbn [truthy negb];
    (split; [split; [intros H; try discriminate H; done | intros [? ?]; done]
            | reflexivity]).
Qed.

(** The chip of each active filter shows the filter's value. *)
Example active_filters_backend_high :
  active_filters (VString "backend") (VString "high") =
    NElement "div"
      {[ "className" := VString "md:col-span-2 p-3 bg-gray-50 dark:bg-gray-900 rounded-lg" ]}
      [NElement "p" {[ "className" := VString "text-sm" ]}
         [NElement "strong" ∅ [NValue (VString "Active filters:")];
          NValue (VString " ");
          NElement "Chip"
            {[ "size" := VString "sm"; "variant" := VString "flat";
               "color" := VString "primary"; "className" := VString "mr-1" ]}
            [NValue (VString "backend")];
          NElement "Chip"
            {[ "size" := VString "sm"; "variant" := VString "flat";
               "color" := VString "secondary"; "className" := VString "mr-1" ]}
            [NValue (VString "high"); NValue (VString " priority")]]].
Proof. reflexivity. Qed.

(** ** The console filter *)

Lemma append_String (c : Ascii.ascii) (a b : string) :
  String c a ++ b = String c (a ++ b).
Proof. reflexivity. Qed.

Lemma prefix_app (t s : string) :
  String.prefix t s = true ↔ ∃ b, s = t ++ b.
Proof.
  revert s. induction t as [| c t IH]; intros s.
  - cbn. split; [eauto | by destruct s].
  - destruct s as [| d s]; cbn [String.prefix].
    + split; [done | intros [b Hb]; discriminate].
    + destruct (Ascii.ascii_dec c d) as [-> | Hne].
      * rewrite IH. split; intros [b Hb]; exists b.
        -- by rewrite Hb.
        -- rewrite append_String in Hb. by injection Hb.
      * split; [done |]. intros [b Hb]. rewrite append_String in Hb.
        by injection Hb.
Qed.

Lemma includes_app (s t : string) :
  includes s t = true ↔ ∃ a b, s = a ++ t ++ b.
Proof.
  split.
  - induction s as [| c s IH]; cbn [includes]; rewrite orb_true_iff.
    + intros [Hp | ?]; [| done]. apply prefix_app in Hp as [b Hb]. by exists "", b.
    + intros [Hp | Hi].
      * apply prefix_app in Hp as [b Hb]. by exists "", b.
      * destruct (IH Hi) as (a & b & ->). by exists (String c a), b.
  - intros (a & b & ->). induction a as [| c a IH].
    + assert (Hp : String.prefix t (t ++ b) = true) by (apply prefix_app; eauto).
      change ("" ++ t ++ b) with (t ++ b).
      destruct (t ++ b); cbn [includes]; by rewrite Hp.
    + rewrite append_String. cbn [includes]. rewrite IH. apply orb_true_r.
Qed.

(** X12: the replacement [console.error] drops a call exactly when its
    first argument is a string in which the deprecation text occurs, at any
    position; the other arguments are not looked at, and a call whose first
    argument is not a string, or that has no argument, is never dropped. *)
Theorem suppressed_iff (args : list value) :
  suppressed args = true ↔
  ∃ (a b : string) (rest : list value),
    args = VString (a ++ deprecation_marker ++ b) :: rest.
Proof.
  unfold suppressed. split.
  - destruct args as [| [| | | | s |] rest]; try done.
    intros Hs. apply includes_app in Hs as (a & b & ->). by exists a, b, rest.
  - intros (a & b & rest & ->). apply includes_app. eauto.
Qed.

Lemma console_run_original (c : console) (calls : list (list value)) :
  error c = OriginalError →
  console_run c (ConsoleError <$> calls) = Console OriginalError (printed c ++ calls)%list.
Proof.
  revert c. induction calls as [| args calls IH]; intros [h out] Hh;
    cbn in Hh; subst h.
  - cbn. by rewrite app_nil_r.
  - cbn. unfold console_run in IH. rewrite IH by done. cbn.
    by rewrite <- app_assoc.
Qed.

Lemma console_run_filtering (c : console) (calls : list (list value)) :
  error c = FilteringError →
  console_run c (ConsoleError <$> calls) =
    Console FilteringError
      (printed c ++ filter (λ args, suppressed args = false) calls)%list.
Proof.
  revert c. induction calls as [| args calls IH]; intros [h out] Hh;
    cbn in Hh; subst h.
  - cbn. by rewrite app_nil_r.
  - cbn [fmap list_fmap console_run foldl console_step error].
    unfold console_run in IH. rewrite filter_cons.
    destruct (suppressed args) eqn:Hs.
    + rewrite IH by done. by rewrite decide_False by done.
    + rewrite IH by done. rewrite decide_True by done. cbn.
      by rewrite <- app_assoc.
Qed.

(** X13: over a test run, calls to [console.error] made before [beforeAll]
    and after [afterAll] all reach the original function; of the calls made
    in between, those that are not dropped reach it, with their arguments
    unchanged and in the order of the calls; and [afterAll] puts the
    original function back. *)
Theorem console_run_test_file (c : console) (before during after : list (list value)) :
  error c = OriginalError →
  console_run c
    ((ConsoleError <$> before) ++ [BeforeAll] ++ (ConsoleError <$> during)
       ++ [AfterAll] ++ (ConsoleError <$> after))%list
  = Console OriginalError
      (printed c ++ before
         ++ filter (λ args, suppressed args = false) during ++ after)%list.
Proof.
  intros Hc. unfold console_run.
  rewrite foldl_app. fold (console_run c (ConsoleError <$> before)).
  rewrite (console_run_original _ _ Hc).
  cbn [app foldl console_step printed].
  rewrite foldl_app.
  fold (console_run (Console FilteringError (printed c ++ before)%list)
          (ConsoleError <$> during)).
  rewrite console_run_filtering by done.
  cbn [app foldl console_step printed].
  fold (console_run (Console OriginalError
          ((printed c ++ before) ++ filter (λ args, suppressed args = false) during)%list)
          (ConsoleError <$> after)).
  rewrite console_run_original by done.
  cbn [printed]. by rewrite <- !app_assoc.
Qed.

Lemma console_run_test_file_witness :
  console_run (Console OriginalError [])
    [ConsoleError [VString "boom"];
     BeforeAll;
     ConsoleError [VString "Warning: ReactDOM.render is deprecated since 18"; VNumber 1];
     ConsoleError [VNumber 1; VString "Warning: ReactDOM.render is deprecated"];
     AfterAll;
     ConsoleError [VString "x Warning: ReactDOM.render is deprecated"]]
  = Console OriginalError
      [[VString "boom"];
       [VNumber 1; VString "Warning: ReactDOM.render is deprecated"];
       [VString "x Warning: ReactDOM.render is deprecated"]].
Proof.
  apply (console_run_test_file (Console OriginalError [])
           [[VString "boom"]]
           [[VString "Warning: ReactDOM.render is deprecated since 18"; VNumber 1];
            [VNumber 1; VString "Warning: ReactDOM.render is deprecated"]]
           [[VString "x Warning: ReactDOM.render is deprecated"]]).
  reflexivity.
Defined.
